(** * The HCI practical reference script (src/hc/ref.py)

    A shallow embedding of the Tkinter form demo: the widgets the script
    builds at module level, its two button callbacks
    [handle_button_click] and [clear_text_box], and the properties of the
    specification that concern them.

    Python strings are modelled by [string]; the module globals (a
    dictionary from names to objects) by a [gmap string widget]; a call
    that can raise by a computation in the [result] monad. *)

From Stdlib Require Import String Ascii Arith Lia.
From stdpp Require Import base option gmap strings.

Local Open Scope string_scope.

(** ** Python strings *)

Module PyStr.

(** The line feed, written "\n" in the script. *)
Definition nl : ascii := "010"%char.
Definition NL : string := String nl EmptyString.

(** Truth value of a [str]: only the empty string is falsy. *)
Definition truthy (s : string) : bool :=
  match s with
  | EmptyString => false
  | String _ _ => true
  end.

(** [s[:n]] and [s[n:]]. *)
Fixpoint take (n : nat) (s : string) : string :=
  match n, s with
  | S n', String a s' => String a (take n' s')
  | _, _ => EmptyString
  end.

Fixpoint drop (n : nat) (s : string) : string :=
  match n, s with
  | S n', String _ s' => drop n' s'
  | _, _ => s
  end.

(** [s[n]] as a character test: is position [n] of [s] the character [a]? *)
Definition char_is (a : ascii) (n : nat) (s : string) : bool :=
  match String.get n s with
  | Some b => Ascii.eqb a b
  | None => false
  end.

End PyStr.

(** ** The buffer of a Tk text widget

    A text widget always ends with a newline that cannot be removed; the
    index [END] is the position just after it.  The widget is represented
    by [chars], its characters *before* that final newline, so that
    [get('1.0', END)] is [chars] followed by a newline and
    [get('1.0', 'end-1c')] is [chars] itself. *)

Module TkText.
Import PyStr.

(** Indices of the form ['line.char'] (lines count from 1, characters
    from 0) and [tk.END]. *)
Inductive index :=
| LineChar (line char : nat)
| END.

(** The whole text, final newline included. *)
Definition full (chars : string) : string := chars +:+ NL.

(** Number of characters before the first newline of [s]. *)
Fixpoint line_length (s : string) : nat :=
  match s with
  | EmptyString => 0
  | String a s' => if Ascii.eqb a nl then 0 else S (line_length s')
  end.

(** What follows the first newline of [s]. *)
Fixpoint skip_line (s : string) : string :=
  match s with
  | EmptyString => EmptyString
  | String a s' => if Ascii.eqb a nl then s' else skip_line s'
  end.

(** Offset in [s] of character [char] of the line [line] (from 0).  A
    character position past the end of the line denotes the line's
    newline, a line past the last one the end of the text. *)
Fixpoint offset_of (line char : nat) (s : string) : nat :=
  match line with
  | 0 => Nat.min char (line_length s)
  | S l =>
      (String.length s - String.length (skip_line s))
      + offset_of l char (skip_line s)
  end.

(** Offset denoted by an index, in [0 .. length (full chars)]. *)
Definition resolve (i : index) (chars : string) : nat :=
  match i with
  | END => String.length (full chars)
  | LineChar 0 _ => 0
  | LineChar (S l) c => offset_of l c (full chars)
  end.

(** Is offset [o] the start of a line other than the first? *)
Definition starts_later_line (o : nat) (chars : string) : bool :=
  match o with
  | 0 => false
  | S o' => char_is nl o' (full chars)
  end.

(** [widget.insert(i, s)]: insertion at the end of the text goes before
    the final newline. *)
Definition insert (i : index) (s : string) (chars : string) : string :=
  let o := Nat.min (resolve i chars) (String.length chars) in
  take o chars +:+ s +:+ drop o chars.

(** [widget.delete(i1, i2)]: removes the characters from [i1] up to
    [i2].  The final newline is never removed: when [i2] is the end of
    the text it is moved back by one character, and so is [i1] when it
    is at the start of a line other than the first. *)
Definition delete (i1 i2 : index) (chars : string) : string :=
  let o1 := resolve i1 chars in
  let o2 := resolve i2 chars in
  if (o2 <=? o1)%nat then chars
  else
    let '(o1, o2) :=
      if (o2 =? String.length (full chars))%nat
      then ((if starts_later_line o1 chars then o1 - 1 else o1), o2 - 1)
      else (o1, o2) in
    take o1 chars +:+ drop o2 chars.

(** [widget.get(i1, i2)]. *)
Definition get (i1 i2 : index) (chars : string) : string :=
  let o1 := resolve i1 chars in
  let o2 := resolve i2 chars in
  take (o2 - o1) (drop o1 (full chars)).

End TkText.

(** ** Calls that may raise *)

Inductive error :=
| NameError (name : string)
| AttributeError (name method : string).

Inductive result (A : Type) :=
| Ok (a : A)
| Raise (e : error).
Arguments Ok {A} a.
Arguments Raise {A} e.

#[global] Instance result_ret : MRet result := @Ok.
#[global] Instance result_bind : MBind result :=
  λ A B (f : A → result B) (m : result A),
    match m with
    | Ok a => f a
    | Raise e => Raise e
    end.

Definition succeeds {A} (m : result A) : Prop :=
  match m with
  | Ok _ => True
  | Raise _ => False
  end.

(** ** Widgets and the module globals *)

(** The two functions of section 2 of the script, as the values a
    button's [command] option can hold. *)
Inductive callback :=
| cb_handle_button_click
| cb_clear_text_box.

(** A widget object with the options the script gives it; [master] is the
    global name of the parent widget.  The geometry-manager calls
    ([pack], [grid], [columnconfigure]) only place the widgets on screen
    and are not part of the model. *)
Inductive widget :=
| Tk (title geometry : string)
| Frame (master padding : string)
| Label (master text : string) (font : option (string * nat))
| Entry (master : string) (width : nat) (content : string)
| Button (master text : string) (command : callback)
| Separator (master orient : string)
| Text (master : string) (height width : nat) (chars : string).

(** The state of the running script: the widgets bound to the module's
    global names, and the names in the order in which a widget
    constructor was called for them. *)
Record world := World {
  globals : gmap string widget;
  created : list string
}.

Definition empty_world : world := World ∅ [].

Definition lookup_global (name : string) (w : world) : result widget :=
  match globals w !! name with
  | Some x => Ok x
  | None => Raise (NameError name)
  end.

(** In-place change of the object bound to [name]. *)
Definition update (name : string) (x : widget) (w : world) : world :=
  World (<[name := x]> (globals w)) (created w).

(** [name = tk.Tk()] *)
Definition new_root (name : string) (x : widget) (w : world) : result world :=
  Ok (World (<[name := x]> (globals w)) (created w ++ [name])).

(** [name = Widget(master, ...)]: the argument [master] is evaluated first. *)
Definition new_child (name master : string) (mk : string → widget) (w : world)
  : result world :=
  _ ← lookup_global master w;
  Ok (World (<[name := mk master]> (globals w)) (created w ++ [name])).

(** *** Widget methods *)

Definition wm_title (name title : string) (w : world) : result world :=
  x ← lookup_global name w;
  match x with
  | Tk _ g => Ok (update name (Tk title g) w)
  | _ => Raise (AttributeError name "title")
  end.

Definition wm_geometry (name geometry : string) (w : world) : result world :=
  x ← lookup_global name w;
  match x with
  | Tk t _ => Ok (update name (Tk t geometry) w)
  | _ => Raise (AttributeError name "geometry")
  end.

(** [name.get()] on an entry. *)
Definition Entry_get (name : string) (w : world) : result string :=
  x ← lookup_global name w;
  match x with
  | Entry _ _ content => Ok content
  | _ => Raise (AttributeError name "get")
  end.

(** [name.config(text=text)] on a label. *)
Definition Label_config_text (name text : string) (w : world) : result world :=
  x ← lookup_global name w;
  match x with
  | Label m _ font => Ok (update name (Label m text font) w)
  | _ => Raise (AttributeError name "config")
  end.

(** [name.delete(i1, i2)] on a text widget. *)
Definition Text_delete (name : string) (i1 i2 : TkText.index) (w : world)
  : result world :=
  x ← lookup_global name w;
  match x with
  | Text m h wd chars => Ok (update name (Text m h wd (TkText.delete i1 i2 chars)) w)
  | _ => Raise (AttributeError name "delete")
  end.

(** [name.insert(i, s)] on a text widget. *)
Definition Text_insert (name : string) (i : TkText.index) (s : string) (w : world)
  : result world :=
  x ← lookup_global name w;
  match x with
  | Text m h wd chars => Ok (update name (Text m h wd (TkText.insert i s chars)) w)
  | _ => Raise (AttributeError name "insert")
  end.

(** ** The action functions (section 2 of the script) *)

Definition handle_button_click (w : world) : result world :=
  user_name ← Entry_get "name_entry" w;
  let user_name :=
    if negb (PyStr.truthy user_name) then "World" else user_name in
  let greeting := "Hello, " +:+ user_name +:+ "! Welcome to HCI." in
  Label_config_text "result_label" greeting w.

Definition clear_text_box (w : world) : result world :=
  w ← Text_delete "info_text_box" (TkText.LineChar 1 0) TkText.END w;
  Text_insert "info_text_box" (TkText.LineChar 1 0) "Text cleared!" w.

Definition call (cb : callback) (w : world) : result world :=
  match cb with
  | cb_handle_button_click => handle_button_click w
  | cb_clear_text_box => clear_text_box w
  end.

(** ** The main application setup (sections 3 and 4 of the script) *)

Definition setup : result world :=
  w ← new_root "window" (Tk "tk" "") empty_world;
  w ← wm_title "window" "HCI Practical Reference" w;
  w ← wm_geometry "window" "500x450" w;
  w ← new_child "main_frame" "window" (λ m, Frame m "10") w;
  w ← new_child "name_label" "main_frame"
        (λ m, Label m "Enter Your Name:" None) w;
  w ← new_child "name_entry" "main_frame" (λ m, Entry m 40 "") w;
  w ← new_child "greet_button" "main_frame"
        (λ m, Button m "Greet Me" cb_handle_button_click) w;
  w ← new_child "result_label" "main_frame"
        (λ m, Label m "...waiting for a greeting..." (Some ("Helvetica", 12))) w;
  w ← new_child "separator" "main_frame" (λ m, Separator m "horizontal") w;
  w ← new_child "text_label" "main_frame"
        (λ m, Label m "Multi-line Text Box:" None) w;
  w ← new_child "info_text_box" "main_frame" (λ m, Text m 8 50 "") w;
  w ← Text_insert "info_text_box" TkText.END
        ("This is a Text widget. It can hold multiple lines." +:+ PyStr.NL) w;
  w ← Text_insert "info_text_box" TkText.END
        ("The button above will 'get' from the 'Entry' and 'config' the label."
         +:+ PyStr.NL) w;
  new_child "clear_button" "main_frame"
    (λ m, Button m "Clear Text Box" cb_clear_text_box) w.

(** The state in which [window.mainloop()] is entered. *)
Definition initial : world :=
  match setup with
  | Ok w => w
  | Raise _ => empty_world
  end.

(** ** The event loop (section 5 of the script)

    What reaches the script while [window.mainloop()] runs: the user
    edits the content of an entry or text widget, or clicks a button,
    which calls the button's [command].  An exception raised by a
    command ends the run of the model; [mainloop_wired] shows that none
    is raised in a run that starts from [initial]. *)

Inductive event :=
| Edit (name content : string)
| Click (name : string).

Definition dispatch (e : event) (w : world) : result world :=
  match e with
  | Edit name s =>
      match globals w !! name with
      | Some (Entry m wd _) => Ok (update name (Entry m wd s) w)
      | Some (Text m h wd _) => Ok (update name (Text m h wd s) w)
      | _ => Ok w
      end
  | Click name =>
      match globals w !! name with
      | Some (Button _ _ command) => call command w
      | _ => Ok w
      end
  end.

Fixpoint mainloop (events : list event) (w : world) : result world :=
  match events with
  | [] => Ok w
  | e :: events' => w' ← dispatch e w; mainloop events' w'
  end.

(** A sequence of handler invocations, one after the other. *)
Fixpoint invoke_all (cbs : list callback) (w : world) : result world :=
  match cbs with
  | [] => Ok w
  | cb :: cbs' => w' ← call cb w; invoke_all cbs' w'
  end.

(** ** Reading the widgets' contents *)

Definition entry_content (name : string) (w : world) : option string :=
  match globals w !! name with
  | Some (Entry _ _ s) => Some s
  | _ => None
  end.

Definition label_text (name : string) (w : world) : option string :=
  match globals w !! name with
  | Some (Label _ t _) => Some t
  | _ => None
  end.

Definition text_content (name : string) (w : world) : option string :=
  match globals w !! name with
  | Some (Text _ _ _ chars) => Some chars
  | _ => None
  end.

(** The three widgets the action functions use are bound, each to a
    widget of its kind. *)
Definition wired (w : world) : Prop :=
  is_Some (entry_content "name_entry" w) ∧
  is_Some (label_text "result_label" w) ∧
  is_Some (text_content "info_text_box" w).

(** The state reached from [initial] by a sequence of events. *)
Definition after (events : list event) : world :=
  match mainloop events initial with
  | Ok w => w
  | Raise _ => empty_world
  end.

(** What every handler call and every event preserves: the widgets the
    handlers use, the set of bound names and the construction log. *)
Definition preserved (w w' : world) : Prop :=
  wired w' ∧ dom (globals w') = dom (globals w) ∧ created w' = created w.

(** The text [handle_button_click] puts in the label when the entry holds
    [user_name]: the default substitution and the f-string of the
    function body. *)
Definition greeting_for (user_name : string) : string :=
  "Hello, "
  +:+ (if negb (PyStr.truthy user_name) then "World" else user_name)
  +:+ "! Welcome to HCI.".

(** The part of the setup that the running script leaves alone: every
    global name other than the entry, the result label and the text box
    is bound as [setup] left it, and these three keep their master and
    their options; only their content may differ. *)
Definition static (w : world) : Prop :=
  (∀ name,
     name ≠ "name_entry" → name ≠ "result_label" → name ≠ "info_text_box" →
     globals w !! name = globals initial !! name) ∧
  (∃ s, globals w !! "name_entry" = Some (Entry "main_frame" 40 s)) ∧
  (∃ t, globals w !! "result_label" =
        Some (Label "main_frame" t (Some ("Helvetica", 12)))) ∧
  (∃ c, globals w !! "info_text_box" = Some (Text "main_frame" 8 50 c)).

(** A label text of the form the handler produces, around a name that
    is not empty. *)
Definition is_greeting (t : string) : Prop :=
  ∃ n, n ≠ "" ∧ t = "Hello, " +:+ n +:+ "! Welcome to HCI.".

(** * Properties *)

(** ** Facts about strings *)

Module PyStrFacts.
Import PyStr.

Lemma app_cons a s t : String a s +:+ t = String a (s +:+ t).
Proof. reflexivity. Qed.

Lemma take_0 s : take 0 s = "".
Proof. by destruct s. Qed.

Lemma drop_0 s : drop 0 s = s.
Proof. by destruct s. Qed.

Lemma drop_all s : drop (String.length s) s = "".
Proof. induction s as [|a s IH]; simpl; auto. Qed.

Lemma take_all s : take (String.length s) s = s.
Proof. induction s as [|a s IH]; simpl; congruence. Qed.

Lemma take_drop n s : take n s +:+ drop n s = s.
Proof.
  revert s; induction n as [|n IH]; intros [|a s]; simpl; auto.
  by rewrite app_cons, IH.
Qed.

Lemma length_app s t :
  String.length (s +:+ t) = String.length s + String.length t.
Proof. induction s as [|a s IH]; [done|]. rewrite app_cons; simpl; auto. Qed.

Lemma app_empty_r s : s +:+ "" = s.
Proof. induction s as [|a s IH]; [done|]. by rewrite app_cons, IH. Qed.

Lemma truthy_nonempty s : s ≠ "" → truthy s = true.
Proof. by destruct s. Qed.

End PyStrFacts.

(** ** Facts about the text buffer *)

Module TkTextFacts.
Import PyStr PyStrFacts TkText.

Lemma length_full chars : String.length (full chars) = S (String.length chars).
Proof. unfold full. rewrite length_app. simpl. lia. Qed.

(** Deleting from ['1.0'] to [END] empties the widget, whatever it held. *)
Lemma delete_everything chars : delete (LineChar 1 0) END chars = "".
Proof.
  unfold delete. cbn [resolve offset_of Nat.min starts_later_line].
  rewrite length_full. cbn [Nat.leb].
  rewrite Nat.eqb_refl. cbn [Nat.sub].
  rewrite Nat.sub_0_r, take_0, drop_all. reflexivity.
Qed.

(** Inserting at ['1.0'] into an empty widget leaves exactly the
    inserted text. *)
Lemma insert_into_empty s : insert (LineChar 1 0) s "" = s.
Proof. unfold insert. simpl. apply app_empty_r. Qed.

(** Inserting at [END] appends to the characters of the widget. *)
Lemma insert_at_end s chars : insert END s chars = chars +:+ s.
Proof.
  unfold insert. cbn [resolve]. rewrite length_full.
  rewrite Nat.min_r by lia.
  rewrite take_all, drop_all, app_empty_r. reflexivity.
Qed.

(** Reading the whole widget gives its characters and the final newline. *)
Lemma get_everything chars : get (LineChar 1 0) END chars = chars +:+ NL.
Proof.
  unfold get. cbn [resolve offset_of Nat.min].
  rewrite Nat.sub_0_r, drop_0. apply take_all.
Qed.

End TkTextFacts.

(** ** The setup, evaluated *)

Example setup_runs : setup = Ok initial.
Proof. vm_compute. reflexivity. Qed.

Example initial_created :
  created initial =
  ["window"; "main_frame"; "name_label"; "name_entry"; "greet_button";
   "result_label"; "separator"; "text_label"; "info_text_box"; "clear_button"].
Proof. vm_compute. reflexivity. Qed.

Example initial_entry : entry_content "name_entry" initial = Some "".
Proof. vm_compute. reflexivity. Qed.

(** ** Auxiliary facts *)

Section Lookups.
Context (w : world).

Lemma entry_content_Some name s :
  entry_content name w = Some s ↔
  ∃ m wd, globals w !! name = Some (Entry m wd s).
Proof.
  unfold entry_content. split.
  - destruct (globals w !! name) as [[]|]; intros [= <-]; eauto.
  - by intros (m & wd & ->).
Qed.

Lemma label_text_Some name t :
  label_text name w = Some t ↔
  ∃ m f, globals w !! name = Some (Label m t f).
Proof.
  unfold label_text. split.
  - destruct (globals w !! name) as [[]|]; intros [= <-]; eauto.
  - by intros (m & f & ->).
Qed.

Lemma text_content_Some name c :
  text_content name w = Some c ↔
  ∃ m h wd, globals w !! name = Some (Text m h wd c).
Proof.
  unfold text_content. split.
  - destruct (globals w !! name) as [[]|]; intros [= <-]; eauto.
  - by intros (m & h & wd & ->).
Qed.

Lemma globals_update name x name' :
  globals (update name x w) !! name' =
  if decide (name = name') then Some x else globals w !! name'.
Proof. unfold update; simpl. apply lookup_insert. Qed.

Lemma update_update name x y :
  update name y (update name x w) = update name y w.
Proof. unfold update; simpl. by rewrite insert_insert_eq. Qed.

Lemma dom_update name x :
  is_Some (globals w !! name) →
  dom (globals (update name x w)) = dom (globals w).
Proof. intros H. unfold update; simpl. by apply dom_insert_lookup_L. Qed.

End Lookups.

(** What [handle_button_click] does when the entry and the label exist. *)
Lemma handle_button_click_eq w m wd s m' t f :
  globals w !! "name_entry" = Some (Entry m wd s) →
  globals w !! "result_label" = Some (Label m' t f) →
  handle_button_click w =
  Ok (update "result_label"
        (Label m'
           ("Hello, " +:+ (if negb (PyStr.truthy s) then "World" else s)
            +:+ "! Welcome to HCI.") f) w).
Proof.
  intros He Hl.
  unfold handle_button_click, Entry_get, Label_config_text, lookup_global.
  rewrite He. cbn [mbind result_bind]. rewrite Hl. reflexivity.
Qed.

(** [handle_button_click] returns only in that case. *)
Lemma handle_button_click_inv w w' :
  handle_button_click w = Ok w' →
  ∃ m wd s m' t f,
    globals w !! "name_entry" = Some (Entry m wd s) ∧
    globals w !! "result_label" = Some (Label m' t f) ∧
    w' = update "result_label"
           (Label m'
              ("Hello, " +:+ (if negb (PyStr.truthy s) then "World" else s)
               +:+ "! Welcome to HCI.") f) w.
Proof.
  unfold handle_button_click, Entry_get, Label_config_text, lookup_global.
  destruct (globals w !! "name_entry") as [[]|] eqn:He;
    cbn [mbind result_bind]; try discriminate.
  destruct (globals w !! "result_label") as [[]|] eqn:Hl;
    cbn [mbind result_bind]; try discriminate.
  intros [= <-]. eauto 10.
Qed.

(** What [clear_text_box] does when the text widget exists. *)
Lemma clear_text_box_eq w m h wd c :
  globals w !! "info_text_box" = Some (Text m h wd c) →
  clear_text_box w = Ok (update "info_text_box" (Text m h wd "Text cleared!") w).
Proof.
  intros Ht.
  unfold clear_text_box, Text_delete, Text_insert, lookup_global.
  rewrite Ht. cbn [mbind result_bind].
  rewrite globals_update. rewrite decide_True by done.
  rewrite TkTextFacts.delete_everything. cbn [mbind result_bind].
  rewrite TkTextFacts.insert_into_empty.
  by rewrite update_update.
Qed.

(** [clear_text_box] returns only in that case. *)
Lemma clear_text_box_inv w w' :
  clear_text_box w = Ok w' →
  ∃ m h wd c,
    globals w !! "info_text_box" = Some (Text m h wd c) ∧
    w' = update "info_text_box" (Text m h wd "Text cleared!") w.
Proof.
  intros H.
  destruct (globals w !! "info_text_box") as [x|] eqn:Ht.
  - destruct x;
      try (unfold clear_text_box, Text_delete, lookup_global in H;
           rewrite Ht in H; discriminate).
    rewrite (clear_text_box_eq _ _ _ _ _ Ht) in H.
    injection H as <-. eauto 10.
  - unfold clear_text_box, Text_delete, lookup_global in H.
    rewrite Ht in H. discriminate.
Qed.

Lemma wired_update_label w m t f :
  wired w → wired (update "result_label" (Label m t f) w).
Proof.
  intros (He & Hl & Ht). unfold wired, entry_content, label_text, text_content.
  rewrite !globals_update.
  rewrite decide_False by done. rewrite decide_True by done.
  rewrite decide_False by done. eauto.
Qed.

Lemma wired_update_text w m h wd c :
  wired w → wired (update "info_text_box" (Text m h wd c) w).
Proof.
  intros (He & Hl & Ht). unfold wired, entry_content, label_text, text_content.
  rewrite !globals_update.
  rewrite decide_False by done. rewrite decide_False by done.
  rewrite decide_True by done. eauto.
Qed.

(** After [clear_text_box] the text widget holds the literal. *)
Lemma clear_text_box_content w prior :
  text_content "info_text_box" w = Some prior →
  ∃ w', clear_text_box w = Ok w' ∧
        text_content "info_text_box" w' = Some "Text cleared!".
Proof.
  intros Ht. apply text_content_Some in Ht as (m & h & wd & Ht).
  eexists. split; [by apply (clear_text_box_eq _ _ _ _ _ Ht)|].
  unfold text_content. by rewrite globals_update, decide_True by done.
Qed.

(** ** The greet handler *)

(** C1: whenever [name_entry] holds a string [s] of length > 0,
    [handle_button_click] returns and leaves [result_label] reading
    exactly "Hello, {s}! Welcome to HCI."; with "Ada" in the entry the
    label reads "Hello, Ada! Welcome to HCI.". *)
Theorem greet_nonempty :
  (∀ w s,
     wired w →
     entry_content "name_entry" w = Some s →
     0 < String.length s →
     ∃ w', handle_button_click w = Ok w' ∧
           label_text "result_label" w' =
           Some ("Hello, " +:+ s +:+ "! Welcome to HCI.")) ∧
  (∀ w,
     wired w →
     entry_content "name_entry" w = Some "Ada" →
     ∃ w', handle_button_click w = Ok w' ∧
           label_text "result_label" w' = Some "Hello, Ada! Welcome to HCI.").
Proof.
  assert (G : ∀ w s,
     wired w →
     entry_content "name_entry" w = Some s →
     0 < String.length s →
     ∃ w', handle_button_click w = Ok w' ∧
           label_text "result_label" w' =
           Some ("Hello, " +:+ s +:+ "! Welcome to HCI.")).
  { intros w s (_ & [t Hl] & _) He Hs.
    apply entry_content_Some in He as (m & wd & He).
    apply label_text_Some in Hl as (m' & f & Hl).
    eexists. split; [by apply (handle_button_click_eq _ _ _ _ _ _ _ He Hl)|].
    unfold label_text. rewrite globals_update, decide_True by done.
    destruct s as [|a s]; [simpl in Hs; lia|]. reflexivity. }
  split; [exact G|].
  intros w Hw He. apply (G w "Ada" Hw He). simpl. lia.
Qed.

Lemma greet_nonempty_witness :
  wired (after [Edit "name_entry" "Ada"]) ∧
  entry_content "name_entry" (after [Edit "name_entry" "Ada"]) = Some "Ada" ∧
  0 < String.length "Ada" ∧
  ∃ w', handle_button_click (after [Edit "name_entry" "Ada"]) = Ok w' ∧
        label_text "result_label" w' = Some "Hello, Ada! Welcome to HCI.".
Proof.
  assert (Hw : wired (after [Edit "name_entry" "Ada"])).
  { repeat split; eexists; vm_compute; reflexivity. }
  assert (He : entry_content "name_entry" (after [Edit "name_entry" "Ada"])
               = Some "Ada") by (vm_compute; reflexivity).
  assert (Hs : 0 < String.length "Ada") by (simpl; lia).
  split; [exact Hw|]. split; [exact He|]. split; [exact Hs|].
  exact (proj1 greet_nonempty _ "Ada" Hw He Hs).
Defined.

(** C2: when [name_entry] holds the empty string, [handle_button_click]
    substitutes "World" and leaves [result_label] reading exactly
    "Hello, World! Welcome to HCI.". *)
Theorem greet_empty w :
  wired w →
  entry_content "name_entry" w = Some "" →
  ∃ w', handle_button_click w = Ok w' ∧
        label_text "result_label" w' = Some "Hello, World! Welcome to HCI.".
Proof.
  intros (_ & [t Hl] & _) He.
  apply entry_content_Some in He as (m & wd & He).
  apply label_text_Some in Hl as (m' & f & Hl).
  eexists. split; [by apply (handle_button_click_eq _ _ _ _ _ _ _ He Hl)|].
  unfold label_text. by rewrite globals_update, decide_True by done.
Qed.

Lemma greet_empty_witness :
  wired initial ∧
  entry_content "name_entry" initial = Some "" ∧
  ∃ w', handle_button_click initial = Ok w' ∧
        label_text "result_label" w' = Some "Hello, World! Welcome to HCI.".
Proof.
  assert (Hw : wired initial).
  { repeat split; eexists; vm_compute; reflexivity. }
  assert (He : entry_content "name_entry" initial = Some "")
    by (vm_compute; reflexivity).
  split; [exact Hw|]. split; [exact He|].
  exact (greet_empty initial Hw He).
Defined.

(** ** The clear handler *)

(** C3: from any state in which [info_text_box] exists, whatever it
    holds, [clear_text_box] returns and leaves it holding exactly
    "Text cleared!". *)
Theorem clear_sets_text w prior :
  text_content "info_text_box" w = Some prior →
  ∃ w', clear_text_box w = Ok w' ∧
        text_content "info_text_box" w' = Some "Text cleared!".
Proof. apply clear_text_box_content. Qed.

Lemma clear_sets_text_witness :
  text_content "info_text_box" (after [Edit "info_text_box" "some notes"])
  = Some "some notes" ∧
  ∃ w', clear_text_box (after [Edit "info_text_box" "some notes"]) = Ok w' ∧
        text_content "info_text_box" w' = Some "Text cleared!".
Proof.
  assert (Ht : text_content "info_text_box"
                 (after [Edit "info_text_box" "some notes"])
               = Some "some notes") by (vm_compute; reflexivity).
  split; [assumption|].
  exact (clear_sets_text _ "some notes" Ht).
Defined.

(** ** Invariants of the event loop *)

Lemma preserved_refl w : wired w → preserved w w.
Proof. by intros Hw. Qed.

Lemma preserved_trans w1 w2 w3 :
  preserved w1 w2 → preserved w2 w3 → preserved w1 w3.
Proof. intros (? & ? & ?) (? & ? & ?). split; [done|split; congruence]. Qed.

Lemma call_wired cb w :
  wired w → ∃ w', call cb w = Ok w' ∧ preserved w w'.
Proof.
  intros Hw. pose proof Hw as ([s He] & [t Hl] & [c Ht]).
  apply entry_content_Some in He as (m1 & wd1 & He).
  apply label_text_Some in Hl as (m2 & f2 & Hl).
  apply text_content_Some in Ht as (m3 & h3 & wd3 & Ht).
  destruct cb; simpl.
  - rewrite (handle_button_click_eq _ _ _ _ _ _ _ He Hl).
    eexists; split; [reflexivity|]. split; [by apply wired_update_label|].
    split; [|done]. apply dom_update. by rewrite Hl.
  - rewrite (clear_text_box_eq _ _ _ _ _ Ht).
    eexists; split; [reflexivity|]. split; [by apply wired_update_text|].
    split; [|done]. apply dom_update. by rewrite Ht.
Qed.

Lemma edit_wired name x y w :
  globals w !! name = Some x →
  (match x, y with
   | Entry _ _ _, Entry _ _ _ | Text _ _ _ _, Text _ _ _ _ => True
   | _, _ => False
   end) →
  wired w → preserved w (update name y w).
Proof.
  intros Hx Hk Hw. split; [|split; [apply dom_update; by rewrite Hx|done]].
  destruct Hw as (He & Hl & Ht).
  unfold wired, entry_content, label_text, text_content in *.
  rewrite !globals_update.
  repeat case_decide; subst; rewrite ?Hx in *;
    destruct x, y; simpl in *; try done;
    repeat split; eauto; by (apply is_Some_None in He || apply is_Some_None in Hl
                              || apply is_Some_None in Ht).
Qed.

Lemma dispatch_wired e w :
  wired w → ∃ w', dispatch e w = Ok w' ∧ preserved w w'.
Proof.
  intros Hw. destruct e as [name s|name]; simpl.
  - destruct (globals w !! name) as [x|] eqn:Hx;
      [|by eexists; split; [|apply preserved_refl]].
    destruct x;
      try (by eexists; split; [|apply preserved_refl]);
      (eexists; split; [reflexivity|]; by eapply edit_wired).
  - destruct (globals w !! name) as [x|] eqn:Hx;
      [|by eexists; split; [|apply preserved_refl]].
    destruct x;
      try (by eexists; split; [|apply preserved_refl]).
    by apply call_wired.
Qed.

Lemma mainloop_wired events w :
  wired w → ∃ w', mainloop events w = Ok w' ∧ preserved w w'.
Proof.
  revert w. induction events as [|e events IH]; intros w Hw; simpl.
  - eexists; split; [reflexivity|by apply preserved_refl].
  - destruct (dispatch_wired e w Hw) as (w1 & -> & H1).
    cbn [mbind result_bind].
    destruct (IH w1 (proj1 H1)) as (w2 & -> & H2).
    eexists; split; [reflexivity|]. by eapply preserved_trans.
Qed.

Lemma invoke_all_wired cbs w :
  wired w → ∃ w', invoke_all cbs w = Ok w' ∧ preserved w w'.
Proof.
  revert w. induction cbs as [|cb cbs IH]; intros w Hw; simpl.
  - eexists; split; [reflexivity|by apply preserved_refl].
  - destruct (call_wired cb w Hw) as (w1 & -> & H1).
    cbn [mbind result_bind].
    destruct (IH w1 (proj1 H1)) as (w2 & -> & H2).
    eexists; split; [reflexivity|]. by eapply preserved_trans.
Qed.

Lemma wired_initial : wired initial.
Proof. repeat split; eexists; vm_compute; reflexivity. Qed.

(** ** Frame properties *)

(** C4: [handle_button_click] changes [result_label] only: after it
    returns, [name_entry] and [info_text_box] hold what they held before,
    every global name other than [result_label] is bound to the same
    widget, and no widget was constructed. *)
Theorem greet_frame w w' :
  handle_button_click w = Ok w' →
  entry_content "name_entry" w' = entry_content "name_entry" w ∧
  text_content "info_text_box" w' = text_content "info_text_box" w ∧
  (∀ name, name ≠ "result_label" → globals w' !! name = globals w !! name) ∧
  created w' = created w.
Proof.
  intros H.
  apply handle_button_click_inv in H
    as (m & wd & s & m' & t & f & He & Hl & ->).
  unfold entry_content, text_content. rewrite !globals_update.
  rewrite !decide_False by done. repeat split.
  intros name Hn. rewrite globals_update. by rewrite decide_False.
Qed.

Lemma greet_frame_witness :
  handle_button_click (after [Edit "name_entry" "Ada"])
  = Ok (after [Edit "name_entry" "Ada"; Click "greet_button"]) ∧
  entry_content "name_entry" (after [Edit "name_entry" "Ada"; Click "greet_button"])
  = Some "Ada" ∧
  text_content "info_text_box" (after [Edit "name_entry" "Ada"; Click "greet_button"])
  = text_content "info_text_box" initial.
Proof.
  assert (H : handle_button_click (after [Edit "name_entry" "Ada"])
              = Ok (after [Edit "name_entry" "Ada"; Click "greet_button"]))
    by (vm_compute; reflexivity).
  split; [exact H|].
  destruct (greet_frame _ _ H) as (He & Ht & _ & _).
  split.
  - rewrite He. vm_compute; reflexivity.
  - rewrite Ht. vm_compute; reflexivity.
Defined.

(** C9: [clear_text_box] changes [info_text_box] only: after it returns,
    [name_entry] and [result_label] hold what they held before, every
    global name other than [info_text_box] is bound to the same widget,
    and no widget was constructed. *)
Theorem clear_frame w w' :
  clear_text_box w = Ok w' →
  entry_content "name_entry" w' = entry_content "name_entry" w ∧
  label_text "result_label" w' = label_text "result_label" w ∧
  (∀ name, name ≠ "info_text_box" → globals w' !! name = globals w !! name) ∧
  created w' = created w.
Proof.
  intros H.
  apply clear_text_box_inv in H as (m & h & wd & c & Ht & ->).
  unfold entry_content, label_text. rewrite !globals_update.
  rewrite !decide_False by done. repeat split.
  intros name Hn. rewrite globals_update. by rewrite decide_False.
Qed.

Lemma clear_frame_witness :
  clear_text_box (after [Edit "name_entry" "Ada"; Click "greet_button"])
  = Ok (after [Edit "name_entry" "Ada"; Click "greet_button";
               Click "clear_button"]) ∧
  entry_content "name_entry"
    (after [Edit "name_entry" "Ada"; Click "greet_button"; Click "clear_button"])
  = Some "Ada" ∧
  label_text "result_label"
    (after [Edit "name_entry" "Ada"; Click "greet_button"; Click "clear_button"])
  = Some "Hello, Ada! Welcome to HCI.".
Proof.
  assert (H : clear_text_box
                (after [Edit "name_entry" "Ada"; Click "greet_button"])
              = Ok (after [Edit "name_entry" "Ada"; Click "greet_button";
                           Click "clear_button"]))
    by (vm_compute; reflexivity).
  split; [exact H|].
  destruct (clear_frame _ _ H) as (He & Hl & _ & _).
  split.
  - rewrite He. vm_compute; reflexivity.
  - rewrite Hl. vm_compute; reflexivity.
Defined.

(** ** Idempotence of the clear handler *)

(** C5: calling [clear_text_box] twice in a row ends in the same state
    of the whole application as calling it once; where [info_text_box]
    exists both calls return and the widget holds "Text cleared!". *)
Theorem clear_idempotent :
  (∀ w, clear_text_box w ≫= clear_text_box = clear_text_box w) ∧
  (∀ w, is_Some (text_content "info_text_box" w) →
        ∃ w1, clear_text_box w = Ok w1 ∧
              clear_text_box w1 = Ok w1 ∧
              text_content "info_text_box" w1 = Some "Text cleared!").
Proof.
  assert (G : ∀ w w1, clear_text_box w = Ok w1 → clear_text_box w1 = Ok w1).
  { intros w w1 H.
    apply clear_text_box_inv in H as (m & h & wd & c & Ht & ->).
    erewrite clear_text_box_eq
      by (rewrite globals_update, decide_True by done; reflexivity).
    by rewrite update_update. }
  split.
  - intros w. destruct (clear_text_box w) as [w1|e] eqn:H; [|reflexivity].
    cbn [mbind result_bind]. by apply (G w).
  - intros w [c Ht].
    destruct (clear_text_box_content w c Ht) as (w1 & H1 & Hc).
    exists w1. split; [done|]. split; [by apply (G w)|done].
Qed.

Lemma clear_idempotent_witness :
  is_Some (text_content "info_text_box" initial) ∧
  ∃ w1, clear_text_box initial = Ok w1 ∧
        clear_text_box w1 = Ok w1 ∧
        text_content "info_text_box" w1 = Some "Text cleared!".
Proof.
  assert (Ht : is_Some (text_content "info_text_box" initial))
    by (eexists; vm_compute; reflexivity).
  split; [exact Ht|].
  exact (proj2 clear_idempotent initial Ht).
Defined.

(** ** The state in which the event loop starts *)

(** C6: the setup runs without raising, and in the state it ends in
    [info_text_box] holds exactly the two literal lines of the script,
    each ending in a newline (line 1 and line 2 of the widget, line 3
    being empty), and [result_label] reads
    "...waiting for a greeting...". *)
Theorem initial_contents :
  setup = Ok initial ∧
  (∃ chars,
     text_content "info_text_box" initial = Some chars ∧
     chars =
       "This is a Text widget. It can hold multiple lines." +:+ PyStr.NL +:+
       "The button above will 'get' from the 'Entry' and 'config' the label."
       +:+ PyStr.NL ∧
     TkText.get (TkText.LineChar 1 0) (TkText.LineChar 2 0) chars =
       "This is a Text widget. It can hold multiple lines." +:+ PyStr.NL ∧
     TkText.get (TkText.LineChar 2 0) (TkText.LineChar 3 0) chars =
       "The button above will 'get' from the 'Entry' and 'config' the label."
       +:+ PyStr.NL ∧
     TkText.get (TkText.LineChar 3 0) TkText.END chars = PyStr.NL) ∧
  label_text "result_label" initial = Some "...waiting for a greeting...".
Proof.
  split; [vm_compute; reflexivity|]. split; [|vm_compute; reflexivity].
  eexists. split; [vm_compute; reflexivity|].
  repeat split; vm_compute; reflexivity.
Qed.

(** ** Totality of the handlers *)

(** C7: in every state in which the widgets of the script exist, both
    handlers return a state and raise nothing; an empty entry makes
    [handle_button_click] return like any other; and every state the
    event loop can reach from the initial one is such a state. *)
Theorem handlers_total :
  (∀ w, wired w →
        succeeds (handle_button_click w) ∧ succeeds (clear_text_box w)) ∧
  (∀ w, wired w → entry_content "name_entry" w = Some "" →
        ∃ w', handle_button_click w = Ok w' ∧
              label_text "result_label" w' =
              Some "Hello, World! Welcome to HCI.") ∧
  (∀ events, ∃ w, mainloop events initial = Ok w ∧ wired w).
Proof.
  split; [|split].
  - intros w Hw.
    destruct (call_wired cb_handle_button_click w Hw) as (w1 & H1 & _).
    destruct (call_wired cb_clear_text_box w Hw) as (w2 & H2 & _).
    simpl in H1, H2. by rewrite H1, H2.
  - intros w (_ & [t Hl] & _) He.
    apply entry_content_Some in He as (m & wd & He).
    apply label_text_Some in Hl as (m' & f & Hl).
    eexists. split; [by apply (handle_button_click_eq _ _ _ _ _ _ _ He Hl)|].
    unfold label_text. by rewrite globals_update, decide_True by done.
  - intros events.
    destruct (mainloop_wired events initial wired_initial) as (w & H & Hw & _).
    eauto.
Qed.

Lemma handlers_total_witness :
  wired (after [Edit "info_text_box" "draft"; Click "greet_button"]) ∧
  succeeds (handle_button_click
              (after [Edit "info_text_box" "draft"; Click "greet_button"])) ∧
  succeeds (clear_text_box
              (after [Edit "info_text_box" "draft"; Click "greet_button"])).
Proof.
  assert (Hw : wired (after [Edit "info_text_box" "draft"; Click "greet_button"])).
  { repeat split; eexists; vm_compute; reflexivity. }
  split; [exact Hw|].
  exact (proj1 handlers_total _ Hw).
Defined.

(** ** Widget existence *)

(** C8: the setup constructs each widget once (no name occurs twice in
    the construction log, and the names bound are exactly the logged
    ones), and after any sequence of [handle_button_click] and
    [clear_text_box] calls the widgets that exist are those the setup
    constructed: same bound names, same construction log. *)
Theorem widgets_created_once :
  setup = Ok initial ∧
  NoDup (created initial) ∧
  dom (globals initial) = list_to_set (created initial) ∧
  ∀ cbs, ∃ w,
    invoke_all cbs initial = Ok w ∧
    dom (globals w) = dom (globals initial) ∧
    created w = created initial.
Proof.
  split; [vm_compute; reflexivity|].
  split; [apply (bool_decide_unpack _); vm_compute; exact I|].
  split; [apply (bool_decide_unpack _); vm_compute; exact I|].
  intros cbs.
  destruct (invoke_all_wired cbs initial wired_initial) as (w & H & _ & Hd & Hc).
  eauto.
Qed.

(** ** The greeting depends on the entry only *)

(** C10: two calls of [handle_button_click] in states whose [name_entry]
    holds the same string leave the same text in [result_label], whatever
    [result_label] and [info_text_box] held before. *)
Theorem greet_depends_on_entry_only w1 w2 w1' w2' :
  entry_content "name_entry" w1 = entry_content "name_entry" w2 →
  handle_button_click w1 = Ok w1' →
  handle_button_click w2 = Ok w2' →
  label_text "result_label" w1' = label_text "result_label" w2'.
Proof.
  intros He H1 H2.
  apply handle_button_click_inv in H1
    as (m1 & wd1 & s1 & m1' & t1 & f1 & He1 & Hl1 & ->).
  apply handle_button_click_inv in H2
    as (m2 & wd2 & s2 & m2' & t2 & f2 & He2 & Hl2 & ->).
  unfold entry_content in He. rewrite He1, He2 in He. injection He as ->.
  unfold label_text. rewrite !globals_update.
  by rewrite !decide_True by done.
Qed.

Lemma greet_depends_on_entry_only_witness :
  entry_content "name_entry" (after [Edit "name_entry" "Ada"])
  = entry_content "name_entry"
      (after [Click "greet_button"; Click "clear_button";
              Edit "name_entry" "Ada"]) ∧
  label_text "result_label" (after [Edit "name_entry" "Ada"])
  ≠ label_text "result_label"
      (after [Click "greet_button"; Click "clear_button";
              Edit "name_entry" "Ada"]) ∧
  text_content "info_text_box" (after [Edit "name_entry" "Ada"])
  ≠ text_content "info_text_box"
      (after [Click "greet_button"; Click "clear_button";
              Edit "name_entry" "Ada"]) ∧
  label_text "result_label"
    (after [Edit "name_entry" "Ada"; Click "greet_button"])
  = label_text "result_label"
      (after [Click "greet_button"; Click "clear_button";
              Edit "name_entry" "Ada"; Click "greet_button"]).
Proof.
  split; [vm_compute; reflexivity|].
  split; [vm_compute; discriminate|].
  split; [vm_compute; discriminate|].
  apply (greet_depends_on_entry_only
           (after [Edit "name_entry" "Ada"])
           (after [Click "greet_button"; Click "clear_button";
                   Edit "name_entry" "Ada"]));
    vm_compute; reflexivity.
Defined.


(** * Further properties of the script *)

(** ** What the setup binds *)

Lemma initial_dom : dom (globals initial) = list_to_set (created initial).
Proof. apply (bool_decide_unpack _); vm_compute; exact I. Qed.

Lemma initial_bound name x :
  globals initial !! name = Some x → name ∈ created initial.
Proof.
  intros H. apply elem_of_dom_2 in H. rewrite initial_dom in H.
  by apply elem_of_list_to_set in H.
Qed.

(** The widgets of the setup by kind: the only entry, the only text
    widget and the two buttons with their commands. *)
Lemma initial_kinds name x :
  globals initial !! name = Some x →
  match x with
  | Entry _ _ _ => name = "name_entry"
  | Text _ _ _ _ => name = "info_text_box"
  | Button _ _ c =>
      (name = "greet_button" ∧ c = cb_handle_button_click) ∨
      (name = "clear_button" ∧ c = cb_clear_text_box)
  | _ => True
  end.
Proof.
  intros H. pose proof (initial_bound _ _ H) as Hn.
  rewrite initial_created in Hn.
  repeat (apply elem_of_cons in Hn as [->|Hn]);
    [vm_compute in H; injection H as <-; auto..|].
  by apply elem_of_nil in Hn.
Qed.

Lemma static_initial : static initial.
Proof.
  split; [done|].
  repeat split; eexists; vm_compute; reflexivity.
Qed.

Lemma static_wired w : static w → wired w.
Proof.
  intros (_ & [s He] & [t Hl] & [c Ht]).
  unfold wired, entry_content, label_text, text_content.
  rewrite He, Hl, Ht. eauto.
Qed.

Lemma static_update_entry w s :
  static w → static (update "name_entry" (Entry "main_frame" 40 s) w).
Proof.
  intros (Ho & He & Hl & Ht). unfold static. rewrite !globals_update.
  repeat case_decide; try done.
  split; [|eauto].
  intros name Hn1 Hn2 Hn3. rewrite globals_update, decide_False by done. auto.
Qed.

Lemma static_update_label w t :
  static w →
  static (update "result_label"
            (Label "main_frame" t (Some ("Helvetica", 12))) w).
Proof.
  intros (Ho & He & Hl & Ht). unfold static. rewrite !globals_update.
  repeat case_decide; try done.
  split; [|eauto].
  intros name Hn1 Hn2 Hn3. rewrite globals_update, decide_False by done. auto.
Qed.

Lemma static_update_text w c :
  static w → static (update "info_text_box" (Text "main_frame" 8 50 c) w).
Proof.
  intros (Ho & He & Hl & Ht). unfold static. rewrite !globals_update.
  repeat case_decide; try done.
  split; [|eauto].
  intros name Hn1 Hn2 Hn3. rewrite globals_update, decide_False by done. auto.
Qed.

Lemma handle_button_click_static w :
  static w →
  ∃ s, entry_content "name_entry" w = Some s ∧
       handle_button_click w =
       Ok (update "result_label"
             (Label "main_frame" (greeting_for s) (Some ("Helvetica", 12))) w).
Proof.
  intros (_ & [s He] & [t Hl] & _). exists s. split.
  - unfold entry_content. by rewrite He.
  - apply (handle_button_click_eq _ _ _ _ _ _ _ He Hl).
Qed.

Lemma clear_text_box_static w :
  static w →
  clear_text_box w =
  Ok (update "info_text_box" (Text "main_frame" 8 50 "Text cleared!") w).
Proof.
  intros (_ & _ & _ & [c Ht]). apply (clear_text_box_eq _ _ _ _ _ Ht).
Qed.

(** A name is one of the three whose content changes, or is bound as the
    setup left it. *)
Lemma static_lookup w name :
  static w →
  (name = "name_entry" ∧ ∃ s, globals w !! name = Some (Entry "main_frame" 40 s)) ∨
  (name = "result_label" ∧
   ∃ t, globals w !! name = Some (Label "main_frame" t (Some ("Helvetica", 12)))) ∨
  (name = "info_text_box" ∧
   ∃ c, globals w !! name = Some (Text "main_frame" 8 50 c)) ∨
  (name ≠ "name_entry" ∧ name ≠ "result_label" ∧ name ≠ "info_text_box" ∧
   globals w !! name = globals initial !! name).
Proof.
  intros (Ho & He & Hl & Ht).
  destruct (decide (name = "name_entry")) as [->|H1]; [by left|].
  destruct (decide (name = "result_label")) as [->|H2]; [by right; left|].
  destruct (decide (name = "info_text_box")) as [->|H3];
    [by right; right; left|].
  right; right; right. auto.
Qed.

(** Clicking in a state of the running script: the two buttons run their
    handlers, a click anywhere else runs nothing. *)
Lemma click_static w name :
  static w →
  dispatch (Click name) w =
  if decide (name = "greet_button") then handle_button_click w
  else if decide (name = "clear_button") then clear_text_box w
  else Ok w.
Proof.
  intros Hs. unfold dispatch.
  destruct (static_lookup w name Hs)
    as [(-> & s & ->)|[(-> & t & ->)|[(-> & c & ->)|(H1 & H2 & H3 & ->)]]];
    try (rewrite !decide_False by done; reflexivity).
  destruct (globals initial !! name) as [x|] eqn:Hx.
  - pose proof (initial_kinds _ _ Hx) as Hk.
    destruct x;
      try (repeat case_decide; subst; vm_compute in Hx; by inversion Hx).
    destruct Hk as [(-> & ->)|(-> & ->)]; reflexivity.
  - repeat case_decide; subst; vm_compute in Hx; by inversion Hx.
Qed.

(** Editing in a state of the running script: only the entry and the
    text box take the edit. *)
Lemma edit_static w name s :
  static w →
  dispatch (Edit name s) w =
  if decide (name = "name_entry")
  then Ok (update "name_entry" (Entry "main_frame" 40 s) w)
  else if decide (name = "info_text_box")
  then Ok (update "info_text_box" (Text "main_frame" 8 50 s) w)
  else Ok w.
Proof.
  intros Hs. unfold dispatch.
  destruct (static_lookup w name Hs)
    as [(-> & s' & ->)|[(-> & t & ->)|[(-> & c & ->)|(H1 & H2 & H3 & ->)]]];
    try (rewrite ?decide_True, ?decide_False by done; reflexivity).
  rewrite !decide_False by done.
  destruct (globals initial !! name) as [x|] eqn:Hx; [|done].
  pose proof (initial_kinds _ _ Hx) as Hk. by destruct x.
Qed.

Lemma dispatch_static e w :
  static w → ∃ w', dispatch e w = Ok w' ∧ static w'.
Proof.
  intros Hs. destruct e as [name s|name].
  - rewrite (edit_static _ _ _ Hs).
    repeat case_decide; eexists; split; try reflexivity;
      auto using static_update_entry, static_update_text.
  - rewrite (click_static _ _ Hs). repeat case_decide.
    + destruct (handle_button_click_static w Hs) as (s & _ & ->).
      eexists; split; [reflexivity|]. by apply static_update_label.
    + rewrite (clear_text_box_static w Hs).
      eexists; split; [reflexivity|]. by apply static_update_text.
    + eauto.
Qed.

Lemma mainloop_static events w :
  static w → ∃ w', mainloop events w = Ok w' ∧ static w'.
Proof.
  revert w. induction events as [|e events IH]; intros w Hs; simpl.
  - eauto.
  - destruct (dispatch_static e w Hs) as (w1 & -> & H1).
    cbn [mbind result_bind]. by apply IH.
Qed.

(** ** Strings the handler builds *)

Lemma string_app_inv_head s a b : s +:+ a = s +:+ b → a = b.
Proof.
  induction s as [|c s IH]; [done|].
  rewrite !PyStrFacts.app_cons. intros [= H]. auto.
Qed.

Lemma string_app_inv_tail t a b : a +:+ t = b +:+ t → a = b.
Proof.
  revert b. induction a as [|c a IH]; intros [|d b] H.
  - done.
  - apply (f_equal String.length) in H.
    rewrite PyStrFacts.app_cons, PyStrFacts.length_app in H.
    simpl in H. rewrite PyStrFacts.length_app in H. lia.
  - apply (f_equal String.length) in H.
    rewrite PyStrFacts.app_cons, PyStrFacts.length_app in H.
    simpl in H. rewrite PyStrFacts.length_app in H. lia.
  - rewrite !PyStrFacts.app_cons in H. injection H as -> H.
    f_equal. by apply IH.
Qed.

Lemma greeting_for_is_greeting s : is_greeting (greeting_for s).
Proof.
  unfold is_greeting, greeting_for.
  destruct s as [|a s]; simpl; eexists; (split; [|reflexivity]); done.
Qed.

Lemma greeting_for_eq s1 s2 :
  greeting_for s1 = greeting_for s2 ↔
  s1 = s2 ∨ (s1 = "" ∧ s2 = "World") ∨ (s1 = "World" ∧ s2 = "").
Proof.
  split.
  - unfold greeting_for. intros H.
    apply string_app_inv_head, string_app_inv_tail in H.
    destruct s1 as [|a1 s1], s2 as [|a2 s2]; simpl in H; auto.
  - intros [->|[[-> ->]|[-> ->]]]; reflexivity.
Qed.

Lemma is_greeting_not_placeholder t :
  is_greeting t → t ≠ "...waiting for a greeting...".
Proof. intros (n & _ & ->) H. discriminate H. Qed.

(** ** Runs of the event loop *)

Lemma mainloop_app events1 events2 w :
  mainloop (events1 ++ events2) w = mainloop events1 w ≫= mainloop events2.
Proof.
  revert w. induction events1 as [|e events1 IH]; intros w; simpl; [done|].
  destruct (dispatch e w) as [w1|err]; cbn [mbind result_bind]; [|done].
  apply IH.
Qed.

(** What an event does to the result label: it leaves the text, or
    replaces it by a greeting; a click on the greet button does the
    latter. *)
Lemma dispatch_label e w :
  static w →
  ∃ w', dispatch e w = Ok w' ∧ static w' ∧
        (label_text "result_label" w' = label_text "result_label" w ∨
         ∃ s, label_text "result_label" w' = Some (greeting_for s)) ∧
        (e = Click "greet_button" →
         ∃ s, label_text "result_label" w' = Some (greeting_for s)).
Proof.
  intros Hs. destruct e as [name s|name].
  - rewrite (edit_static _ _ _ Hs).
    repeat case_decide; eexists; (split; [reflexivity|]);
      (split; [auto using static_update_entry, static_update_text|]);
      (split; [left|done]); unfold label_text;
      rewrite ?globals_update, ?decide_False by done; reflexivity.
  - rewrite (click_static _ _ Hs). repeat case_decide.
    + destruct (handle_button_click_static w Hs) as (s & _ & ->).
      eexists; split; [reflexivity|].
      split; [by apply static_update_label|].
      assert (label_text "result_label"
                (update "result_label"
                   (Label "main_frame" (greeting_for s)
                      (Some ("Helvetica", 12))) w)
              = Some (greeting_for s)) as Hl.
      { unfold label_text. by rewrite globals_update, decide_True by done. }
      split; [right|]; eauto.
    + rewrite (clear_text_box_static w Hs).
      eexists; split; [reflexivity|].
      split; [by apply static_update_text|].
      split; [left|by intros [= ->]].
      unfold label_text. by rewrite globals_update, decide_False by done.
    + eexists; split; [reflexivity|]. split; [done|].
      split; [by left|]. by intros [= ->].
Qed.

(** A property of the label text that every greeting has is kept by
    every run. *)
Lemma mainloop_label (P : string → Prop) events w :
  (∀ s, P (greeting_for s)) →
  static w →
  (∃ t, label_text "result_label" w = Some t ∧ P t) →
  ∃ w', mainloop events w = Ok w' ∧ static w' ∧
        ∃ t, label_text "result_label" w' = Some t ∧ P t.
Proof.
  intros HP. revert w.
  induction events as [|e events IH]; intros w Hs Hl; simpl; [eauto|].
  destruct (dispatch_label e w Hs) as (w1 & -> & Hs1 & [Hk|[s Hg]] & _);
    cbn [mbind result_bind]; apply IH; try done.
  - by rewrite Hk.
  - eauto.
Qed.

(** ** What a run of the script never changes *)

(** X1: whatever the user does, the running script changes nothing but
    the content of [name_entry], the text of [result_label] and the
    content of [info_text_box]: the window with its title and size, the
    frame, the two captions, the separator and both buttons with their
    commands stay as the setup made them, and the three widgets keep
    their master and their options. *)
Theorem run_keeps_setup events :
  ∃ w, mainloop events initial = Ok w ∧ static w.
Proof. apply mainloop_static, static_initial. Qed.

(** X2: in every state a run reaches, a click on [greet_button] calls
    [handle_button_click], a click on [clear_button] calls
    [clear_text_box], and a click on any other widget calls nothing and
    leaves the state as it is. *)
Theorem buttons_run_their_handlers events name :
  ∃ w, mainloop events initial = Ok w ∧
       dispatch (Click name) w =
       if decide (name = "greet_button") then handle_button_click w
       else if decide (name = "clear_button") then clear_text_box w
       else Ok w.
Proof.
  destruct (mainloop_static events initial static_initial) as (w & H & Hs).
  exists w. split; [done|]. by apply click_static.
Qed.

(** X3: in every state a run reaches, [result_label] shows either the
    text it was built with or "Hello, n! Welcome to HCI." for a name [n]
    that is not empty; once [greet_button] was clicked it shows a
    greeting, and the waiting text does not come back. *)
Theorem label_shows_placeholder_or_greeting :
  (∀ events, ∃ w t,
     mainloop events initial = Ok w ∧
     label_text "result_label" w = Some t ∧
     (t = "...waiting for a greeting..." ∨ is_greeting t)) ∧
  (∀ events1 events2, ∃ w t,
     mainloop (events1 ++ Click "greet_button" :: events2) initial = Ok w ∧
     label_text "result_label" w = Some t ∧
     is_greeting t ∧ t ≠ "...waiting for a greeting...").
Proof.
  split.
  - intros events.
    destruct (mainloop_label
                (λ t, t = "...waiting for a greeting..." ∨ is_greeting t)
                events initial) as (w & H & _ & t & Ht & HP).
    + intros s. right. apply greeting_for_is_greeting.
    + apply static_initial.
    + eexists. split; [vm_compute; reflexivity|by left].
    + eauto.
  - intros events1 events2. rewrite mainloop_app.
    destruct (mainloop_static events1 initial static_initial)
      as (w1 & -> & Hs1).
    cbn [mbind result_bind mainloop].
    destruct (dispatch_label (Click "greet_button") w1 Hs1)
      as (w2 & -> & Hs2 & _ & Hg).
    destruct (Hg eq_refl) as (s & Hl). cbn [mbind result_bind].
    destruct (mainloop_label is_greeting events2 w2)
      as (w & H & _ & t & Ht & HP);
      [apply greeting_for_is_greeting|done|
       eauto using greeting_for_is_greeting|].
    exists w, t. auto using is_greeting_not_placeholder.
Qed.

(** ** How the handlers compose *)

(** X4: [handle_button_click] is idempotent: called twice in a row it
    leaves the whole state as one call does (and raises what one call
    raises). *)
Theorem greet_idempotent w :
  handle_button_click w ≫= handle_button_click = handle_button_click w.
Proof.
  destruct (handle_button_click w) as [w1|e] eqn:H; [|reflexivity].
  cbn [mbind result_bind].
  apply handle_button_click_inv in H
    as (m & wd & s & m' & t & f & He & Hl & ->).
  erewrite handle_button_click_eq.
  - by rewrite update_update.
  - rewrite globals_update, decide_False by done. exact He.
  - rewrite globals_update, decide_True by done. reflexivity.
Qed.

(** X5: the two handlers commute: where the widgets exist, greeting and
    then clearing ends in the same state as clearing and then
    greeting. *)
Theorem handlers_commute w :
  wired w →
  handle_button_click w ≫= clear_text_box =
  clear_text_box w ≫= handle_button_click.
Proof.
  intros ([s He] & [t Hl] & [c Ht]).
  apply entry_content_Some in He as (m1 & wd1 & He).
  apply label_text_Some in Hl as (m2 & f2 & Hl).
  apply text_content_Some in Ht as (m3 & h3 & wd3 & Ht).
  rewrite (handle_button_click_eq _ _ _ _ _ _ _ He Hl).
  rewrite (clear_text_box_eq _ _ _ _ _ Ht).
  cbn [mbind result_bind].
  erewrite clear_text_box_eq
    by (rewrite globals_update, decide_False by done; exact Ht).
  erewrite handle_button_click_eq;
    [|rewrite globals_update, decide_False by done; exact He
     |rewrite globals_update, decide_False by done; exact Hl].
  f_equal. unfold update; simpl. f_equal. by apply insert_insert_ne.
Qed.

Lemma handlers_commute_witness :
  wired (after [Edit "name_entry" "Ada"]) ∧
  handle_button_click (after [Edit "name_entry" "Ada"]) ≫= clear_text_box =
  clear_text_box (after [Edit "name_entry" "Ada"]) ≫= handle_button_click ∧
  succeeds (clear_text_box (after [Edit "name_entry" "Ada"])
            ≫= handle_button_click).
Proof.
  assert (Hw : wired (after [Edit "name_entry" "Ada"])).
  { repeat split; eexists; vm_compute; reflexivity. }
  split; [exact Hw|]. split; [exact (handlers_commute _ Hw)|].
  vm_compute. exact I.
Defined.

(** ** What the greeting tells about the entry *)

(** X6: two greetings read the same exactly when the entries held the
    same string, or one entry was empty and the other held "World": the
    default is the only case in which the label does not identify what
    was typed. *)
Theorem greeting_identifies_entry w1 w2 w1' w2' s1 s2 :
  entry_content "name_entry" w1 = Some s1 →
  entry_content "name_entry" w2 = Some s2 →
  handle_button_click w1 = Ok w1' →
  handle_button_click w2 = Ok w2' →
  label_text "result_label" w1' = label_text "result_label" w2' ↔
  s1 = s2 ∨ (s1 = "" ∧ s2 = "World") ∨ (s1 = "World" ∧ s2 = "").
Proof.
  intros He1 He2 H1 H2.
  apply handle_button_click_inv in H1
    as (m1 & wd1 & s1' & m1' & t1 & f1 & He1' & Hl1 & ->).
  apply handle_button_click_inv in H2
    as (m2 & wd2 & s2' & m2' & t2 & f2 & He2' & Hl2 & ->).
  unfold entry_content in He1, He2. rewrite He1' in He1. rewrite He2' in He2.
  injection He1 as ->. injection He2 as ->.
  unfold label_text. rewrite !globals_update, !decide_True by done.
  change (Some (greeting_for s1) = Some (greeting_for s2) ↔
          s1 = s2 ∨ (s1 = "" ∧ s2 = "World") ∨ (s1 = "World" ∧ s2 = "")).
  split.
  - intros H. apply (inj Some) in H. by apply greeting_for_eq.
  - intros H. apply greeting_for_eq in H. by rewrite H.
Qed.

Lemma greeting_identifies_entry_witness :
  entry_content "name_entry" initial = Some "" ∧
  entry_content "name_entry" (after [Edit "name_entry" "World"]) = Some "World" ∧
  handle_button_click initial = Ok (after [Click "greet_button"]) ∧
  handle_button_click (after [Edit "name_entry" "World"])
  = Ok (after [Edit "name_entry" "World"; Click "greet_button"]) ∧
  label_text "result_label" (after [Click "greet_button"])
  = label_text "result_label"
      (after [Edit "name_entry" "World"; Click "greet_button"]).
Proof.
  assert (He1 : entry_content "name_entry" initial = Some "")
    by (vm_compute; reflexivity).
  assert (He2 : entry_content "name_entry" (after [Edit "name_entry" "World"])
                = Some "World") by (vm_compute; reflexivity).
  assert (H1 : handle_button_click initial = Ok (after [Click "greet_button"]))
    by (vm_compute; reflexivity).
  assert (H2 : handle_button_click (after [Edit "name_entry" "World"])
               = Ok (after [Edit "name_entry" "World"; Click "greet_button"]))
    by (vm_compute; reflexivity).
  repeat (split; [assumption|]).
  apply (proj2 (greeting_identifies_entry _ _ _ _ _ _ He1 He2 H1 H2)).
  right; left. split; reflexivity.
Defined.

(** ** Calls before the widgets exist *)

(** X7: a handler called while a name it uses is unbound raises
    [NameError] for the first such name in the order of its body:
    [handle_button_click] for [name_entry] whatever else is bound, for
    [result_label] once the entry exists, and [clear_text_box] for
    [info_text_box]. *)
Theorem unbound_names_raise w :
  (globals w !! "name_entry" = None →
   handle_button_click w = Raise (NameError "name_entry")) ∧
  (is_Some (entry_content "name_entry" w) →
   globals w !! "result_label" = None →
   handle_button_click w = Raise (NameError "result_label")) ∧
  (globals w !! "info_text_box" = None →
   clear_text_box w = Raise (NameError "info_text_box")).
Proof.
  split; [|split].
  - intros H. unfold handle_button_click, Entry_get, lookup_global.
    by rewrite H.
  - intros [s He] Hl. apply entry_content_Some in He as (m & wd & He).
    unfold handle_button_click, Entry_get, Label_config_text, lookup_global.
    rewrite He. cbn [mbind result_bind]. by rewrite Hl.
  - intros H. unfold clear_text_box, Text_delete, lookup_global.
    by rewrite H.
Qed.

Lemma unbound_names_raise_witness :
  globals empty_world !! "name_entry" = None ∧
  handle_button_click empty_world = Raise (NameError "name_entry") ∧
  is_Some (entry_content "name_entry"
             (update "name_entry" (Entry "main_frame" 40 "Ada") empty_world)) ∧
  globals (update "name_entry" (Entry "main_frame" 40 "Ada") empty_world)
    !! "result_label" = None ∧
  handle_button_click
    (update "name_entry" (Entry "main_frame" 40 "Ada") empty_world)
  = Raise (NameError "result_label") ∧
  globals empty_world !! "info_text_box" = None ∧
  clear_text_box empty_world = Raise (NameError "info_text_box").
Proof.
  assert (H1 : globals empty_world !! "name_entry" = None) by reflexivity.
  assert (H2 : is_Some (entry_content "name_entry"
                          (update "name_entry" (Entry "main_frame" 40 "Ada")
                             empty_world)))
    by (eexists; vm_compute; reflexivity).
  assert (H3 : globals (update "name_entry" (Entry "main_frame" 40 "Ada")
                          empty_world) !! "result_label" = None)
    by (vm_compute; reflexivity).
  assert (H4 : globals empty_world !! "info_text_box" = None) by reflexivity.
  split; [exact H1|].
  split; [exact (proj1 (unbound_names_raise empty_world) H1)|].
  split; [exact H2|]. split; [exact H3|].
  split; [exact (proj1 (proj2 (unbound_names_raise _)) H2 H3)|].
  split; [exact H4|].
  exact (proj2 (proj2 (unbound_names_raise empty_world)) H4).
Defined.
